(** * preciazo: price observations, from retailer page to product history

    A shallow embedding of
    - the [precios] table declaration and the product page's [load]
      function (the query layer), and
    - the [dia] retailer extractor [getDiaProduct] (scraper/dia.ts),
    with the properties of each that the specification states. *)

From Stdlib Require Import ZArith Lia Ascii String.
From stdpp Require Import base list strings pretty sorting.

Local Open Scope Z_scope.

(** * The [precios] table *)

Module Schema.

(** [integer(..., { mode })] of drizzle-orm/sqlite-core; the mode is
    ["number"] when none is given. *)
Inductive IntegerMode := ModeNumber | ModeTimestamp | ModeBoolean.

Inductive ColumnKind :=
| integer (mode : IntegerMode)
| text.

Record Column := {
  sqlName : string;
  kind : ColumnKind;
  notNull : bool;
  primaryKey : bool;
  autoIncrement : bool
}.

Global Instance IntegerMode_eq_dec : EqDecision IntegerMode.
Proof. solve_decision. Defined.
Global Instance ColumnKind_eq_dec : EqDecision ColumnKind.
Proof. solve_decision. Defined.
Global Instance Column_eq_dec : EqDecision Column.
Proof. solve_decision. Defined.

(** [sqliteTable("precios", { ... })]: the fields of a row object, in the
    order of the declaration, each with its column. *)
Definition precios : list (string * Column) :=
  [ ("id", {| sqlName := "id"; kind := integer ModeNumber;
              notNull := false; primaryKey := true; autoIncrement := true |});
    ("ean", {| sqlName := "ean"; kind := text;
               notNull := true; primaryKey := false; autoIncrement := false |});
    ("fetchedAt", {| sqlName := "fetched_at"; kind := integer ModeTimestamp;
                     notNull := true; primaryKey := false; autoIncrement := false |});
    ("precioCentavos", {| sqlName := "precio_centavos"; kind := integer ModeNumber;
                          notNull := false; primaryKey := false; autoIncrement := false |});
    ("inStock", {| sqlName := "in_stock"; kind := integer ModeBoolean;
                   notNull := false; primaryKey := false; autoIncrement := false |});
    ("url", {| sqlName := "url"; kind := text;
               notNull := false; primaryKey := false; autoIncrement := false |}) ].

(** The value a field of a selected row holds. *)
Inductive FieldType := TNumber | TString | TTimestamp | TBoolean.

Global Instance FieldType_eq_dec : EqDecision FieldType.
Proof. solve_decision. Defined.

Definition fieldType (c : Column) : FieldType :=
  match kind c with
  | integer ModeNumber => TNumber
  | integer ModeTimestamp => TTimestamp
  | integer ModeBoolean => TBoolean
  | text => TString
  end.

(** A primary key is never null, whether or not [notNull()] is written. *)
Definition nullable (c : Column) : bool :=
  negb (notNull c || primaryKey c).

(** What a table declaration says of each field of its rows:
    the type, whether null is allowed, whether the engine assigns it. *)
Record FieldShape := {
  fieldName : string;
  fieldOf : FieldType;
  fieldNullable : bool;
  fieldAuto : bool
}.

Global Instance FieldShape_eq_dec : EqDecision FieldShape.
Proof. solve_decision. Defined.

Definition shape (table : list (string * Column)) : list FieldShape :=
  (λ fc, {| fieldName := fc.1; fieldOf := fieldType fc.2;
            fieldNullable := nullable fc.2;
            fieldAuto := autoIncrement fc.2 |}) <$> table.

(** Modelled from the spec: the persisted layout of section 6, the seven
    fields a stored observation has. *)
Definition persistedLayout : list FieldShape :=
  [ {| fieldName := "id"; fieldOf := TNumber; fieldNullable := false; fieldAuto := true |};
    {| fieldName := "ean"; fieldOf := TString; fieldNullable := false; fieldAuto := false |};
    {| fieldName := "fetchedAt"; fieldOf := TTimestamp; fieldNullable := false; fieldAuto := false |};
    {| fieldName := "precioCentavos"; fieldOf := TNumber; fieldNullable := true; fieldAuto := false |};
    {| fieldName := "inStock"; fieldOf := TBoolean; fieldNullable := true; fieldAuto := false |};
    {| fieldName := "url"; fieldOf := TString; fieldNullable := true; fieldAuto := false |};
    {| fieldName := "name"; fieldOf := TString; fieldNullable := true; fieldAuto := false |} ].

(** A row of [precios] as [select()] returns it: one field per declared
    column. [fetchedAt] is the stored integer of the timestamp. *)
Record Precio := {
  id : Z;
  ean : string;
  fetchedAt : Z;
  precioCentavos : option Z;
  inStock : option bool;
  url : option string
}.

Global Instance Precio_eq_dec : EqDecision Precio.
Proof. solve_decision. Defined.

End Schema.

(** * The query layer: the product page's [load] *)

(** What [load] reads of a row object [p]: [precios.ean] and
    [precios.fetchedAt] in the query, [p.name] in the search for the
    metadata row. [row_name p] is [None] where [p.name] is [null] or
    [undefined]. [row_id] is the auto-incremented identity, the order of
    insertion. *)
Class RowLike (Row : Type) := {
  row_id : Row → Z;
  row_ean : Row → string;
  row_fetchedAt : Row → Z;
  row_name : Row → option string
}.

(** Rows of the table as declared: there is no [name] column, so [p.name]
    is [undefined] on each of them. *)
Global Instance Precio_RowLike : RowLike Schema.Precio := {|
  row_id := Schema.id;
  row_ean := Schema.ean;
  row_fetchedAt := Schema.fetchedAt;
  row_name := λ _, None
|}.

(** Modelled from the spec: a row of the persisted layout of section 6,
    the declared columns and the [name] column that the declaration of
    [precios] does not have. *)
Record NamedPrecio := {
  columns : Schema.Precio;
  name : option string
}.

Global Instance NamedPrecio_eq_dec : EqDecision NamedPrecio.
Proof. solve_decision. Defined.

Global Instance NamedPrecio_RowLike : RowLike NamedPrecio := {|
  row_id := λ r, Schema.id (columns r);
  row_ean := λ r, Schema.ean (columns r);
  row_fetchedAt := λ r, Schema.fetchedAt (columns r);
  row_name := name
|}.

(** JavaScript truthiness of a [string | null | undefined]: every string but
    the empty one. *)
Definition truthy (v : option string) : bool :=
  match v with
  | Some s => if decide (s = "") then false else true
  | None => false
  end.

(** [Array.prototype.findLast]: the element of greatest index that satisfies
    the predicate, [undefined] when there is none. *)
Fixpoint findLast {A} (p : A → bool) (l : list A) : option A :=
  match l with
  | [] => None
  | x :: l' =>
      match findLast p l' with
      | Some y => Some y
      | None => if p x then Some x else None
      end
  end.

(** How [load] ends: with the HTTP error of [error(404, "Not Found")], or
    with the object [{ precios, meta }] for the page. *)
Inductive LoadOutcome (Row : Type) :=
| HttpError (status : Z) (message : string)
| PageData (precios : list Row) (meta : option Row).
Arguments HttpError {Row} status message.
Arguments PageData {Row} precios meta.

Definition meta_of {Row} (o : LoadOutcome Row) : option Row :=
  match o with
  | PageData _ m => m
  | HttpError _ _ => None
  end.

Section Query.
Context {Row : Type} `{RowLike Row}.

(** The key of [.orderBy(precios.fetchedAt)]: ascending, and nothing else. *)
Definition fetchedAt_le (a b : Row) : Prop := row_fetchedAt a ≤ row_fetchedAt b.

Global Instance fetchedAt_le_dec a b : Decision (fetchedAt_le a b).
Proof. unfold fetchedAt_le. apply _. Defined.

Global Instance fetchedAt_le_trans : Transitive fetchedAt_le.
Proof. unfold fetchedAt_le. intros a b c. lia. Qed.

Global Instance fetchedAt_le_total : Total fetchedAt_le.
Proof. unfold fetchedAt_le. intros a b. lia. Qed.

(** The rows [.where(eq(precios.ean, params.ean))] keeps. *)
Definition where_ean (e : string) (table : list Row) : list Row :=
  filter (λ r, row_ean r = e) table.

(** [res] is an answer to
    [db.select().from(precios).where(eq(precios.ean, e)).orderBy(precios.fetchedAt)]
    over the stored rows [table] (in order of insertion): the rows of that
    EAN, each as often as stored, in ascending order of [fetchedAt]. This
    is what SQL promises of the answer, whatever the engine: the query names
    no second key. ([sqlite_select] below is the answer of the engine the
    table is declared for.) *)
Definition is_query_result (table : list Row) (e : string) (res : list Row) : Prop :=
  res ≡ₚ where_ean e table ∧ Sorted fetchedAt_le res.


(** The body of [load] after [const res = await q]. *)
Definition load_page (res : list Row) : LoadOutcome Row :=
  if (length res =? 0)%nat then HttpError 404 "Not Found"
  else PageData res (findLast (λ p, truthy (row_name p)) res).

(** [load({ params })] over a database holding [table]. *)
Inductive load (table : list Row) (ean : string) : LoadOutcome Row → Prop :=
| load_intro res :
    is_query_result table ean res → load table ean (load_page res).


(** A row of the requested EAN whose [name] is not empty. *)
Definition named_row (table : list Row) (e : string) (r : Row) : Prop :=
  r ∈ table ∧ row_ean r = e ∧ truthy (row_name r) = true.

End Query.

(** * The query layer: the engine's answer *)

Section Engine.
Context {Row : Type} `{RowLike Row}.






End Engine.

(** * The scraper: JavaScript values and exceptions *)

(** Which absent value a property was read of. *)
Inductive Absent := Undefined | Null.

(** What a call can throw. [Error] is [throw new Error(message)];
    [TypeError] is the engine's own, for a property read of [undefined] or
    [null]. [MalformedStructuredData] and [PriceParseError] are the two
    failures of the toolkit. *)
Inductive Exn :=
| Error (message : string)
| TypeError (base : Absent) (property : string)
| MalformedStructuredData
| PriceParseError.

Global Instance Absent_eq_dec : EqDecision Absent.
Proof. solve_decision. Defined.
Global Instance Exn_eq_dec : EqDecision Exn.
Proof. solve_decision. Defined.

(** A call returns a value or throws. *)
Inductive Completion (A : Type) :=
| Return (a : A)
| Throw (e : Exn).
Arguments Return {A} a.
Arguments Throw {A} e.

Global Instance Completion_ret : MRet Completion := λ A a, Return a.
Global Instance Completion_bind : MBind Completion := λ A B k c,
  match c with
  | Return a => k a
  | Throw e => Throw e
  end.

(** The value [JSON.parse] builds. A number is [mantissa] times ten to the
    [exponent]; the members of an object stand in the order of the text. *)
#[local] Unset Elimination Schemes.
Inductive JSON :=
| JNull
| JBool (b : bool)
| JNumber (mantissa exponent : Z)
| JString (s : string)
| JArray (items : list JSON)
| JObject (members : list (string * JSON)).
#[local] Set Elimination Schemes.

(** A JavaScript value of the JSON-LD tree; [None] is [undefined]. *)
Definition JsValue : Type := option JSON.

(** The key of a property read: [.name] or [[index]]. *)
Inductive Key := Name (s : string) | Index (n : nat).

(** The key as the property name an object is asked for. *)
Definition key_string (k : Key) : string :=
  match k with
  | Name s => s
  | Index n => pretty n
  end.

(** The own property [k] of a parsed object: of two members of one name the
    later one stands. *)
Definition member (k : string) (members : list (string * JSON)) : JsValue :=
  snd <$> findLast (λ m, bool_decide (m.1 = k)) members.

(** The character at [n] as a string of its own (of a text in ASCII, where
    a character is one byte and one code unit). *)
Definition char_at (n : nat) (s : string) : option string :=
  (λ c, String c EmptyString) <$> String.get n s.

(** Reading property [k] of [v]. Of [undefined] and [null] the read throws.
    An object gives its member, an array its item or its [length], a string
    its character or its [length]; whatever else is asked of a value without
    that property is [undefined]. (What a value inherits from its prototype,
    the methods of objects, arrays, strings, numbers and booleans, is no
    JSON value and is left out: none of it is named [offers],
    [availability] or [0].) *)
Definition js_get (v : JsValue) (k : Key) : Completion JsValue :=
  match v with
  | None => Throw (TypeError Undefined (key_string k))
  | Some JNull => Throw (TypeError Null (key_string k))
  | Some (JObject ms) => Return (member (key_string k) ms)
  | Some (JArray xs) =>
      match k with
      | Index n => Return (xs !! n)
      | Name s =>
          if decide (s = "length")
          then Return (Some (JNumber (Z.of_nat (length xs)) 0))
          else Return None
      end
  | Some (JString t) =>
      match k with
      | Index n => Return (JString <$> char_at n t)
      | Name s =>
          if decide (s = "length")
          then Return (Some (JNumber (Z.of_nat (String.length t)) 0))
          else Return None
      end
  | Some (JBool _) | Some (JNumber _ _) => Return None
  end.

(** [v === s] for a string literal [s]. *)
Definition strict_eq_string (v : JsValue) (s : string) : bool :=
  match v with
  | Some (JString t) => bool_decide (t = s)
  | _ => false
  end.

(** * The scraper: documents *)

(** The input of an extractor: [string | Buffer]. *)
Inductive Html :=
| HtmlString (s : string)
| HtmlBuffer (bytes : list Byte.byte).

(** What the toolkit reads of a parsed document: its meta tags, property and
    content, in document order, and the text of the script node that holds
    the product's JSON-LD, when there is one. *)
Record Document := {
  metas : list (string * string);
  productLd : option string
}.

(** The canonical observation an extractor returns. *)
Record Precioish := {
  ean : string;
  precioCentavos : option Z;
  inStock : option bool
}.

Global Instance Precioish_eq_dec : EqDecision Precioish.
Proof. solve_decision. Defined.

(** * The scraper: the toolkit (common.js) *)

(** A decimal amount: [units] over ten to the [decimals]. *)
Record Amount := {
  units : Z;
  decimals : nat
}.

(** The value of a decimal digit. *)
Definition digit_value (c : ascii) : option Z :=
  let n := Z.of_N (N_of_ascii c) in
  if decide (48 ≤ n ≤ 57) then Some (n - 48) else None.

(** The number a run of digits writes, most significant first, after the
    digits already read. *)
Fixpoint digits_value (acc : Z) (s : string) : option Z :=
  match s with
  | EmptyString => Some acc
  | String c s' =>
      match digit_value c with
      | Some d => digits_value (10 * acc + d) s'
      | None => None
      end
  end.

(** The text before the first point and, when there is a point, the text
    after it. *)
Fixpoint split_point (s : string) : string * option string :=
  match s with
  | EmptyString => (EmptyString, None)
  | String c s' =>
      if decide (c = "."%char) then (EmptyString, Some s')
      else let '(whole, frac) := split_point s' in (String c whole, frac)
  end.

(** An unsigned decimal: digits, at least one, and then possibly a point
    and digits, at least one. *)
Definition parse_unsigned (s : string) : option Amount :=
  match split_point s with
  | (EmptyString, _) => None
  | (whole, None) =>
      w ← digits_value 0 whole; Some {| units := w; decimals := 0 |}
  | (_, Some EmptyString) => None
  | (whole, Some frac) =>
      w ← digits_value 0 whole;
      u ← digits_value w frac;
      Some {| units := u; decimals := String.length frac |}
  end.

(** Modelled from the spec: what section 4.1 calls a valid decimal number,
    the text of a decimal currency amount. An unsigned decimal, or one
    after a minus sign. *)
Definition parse_decimal (s : string) : option Amount :=
  match s with
  | String "-"%char s' =>
      a ← parse_unsigned s';
      Some {| units := - units a; decimals := decimals a |}
  | _ => parse_unsigned s
  end.

(** Modelled from the spec: the amount in minor units, "multiply by 100,
    round to nearest integer"; of two integers equally near, the greater
    (as [Math.round] does). *)
Definition to_centavos (a : Amount) : Z :=
  (2 * (100 * units a) + 10 ^ Z.of_nat (decimals a))
    `div` (2 * 10 ^ Z.of_nat (decimals a)).

(** Modelled from the spec: [getMetaProp(document, propertyName)] of
    common.js, "looks up a single meta-tag's content by its property";
    absent, and no error, when the tag is missing. Of several tags of one
    property the first in the document answers. *)
Definition getMetaProp (dom : Document) (prop : string) : option string :=
  snd <$> List.find (λ m, bool_decide (m.1 = prop)) (metas dom).

Section Toolkit.

(** [JSON.parse], [None] where it throws its SyntaxError. *)
Variable JSON_parse : string → option JSON.

(** The property of the price-bearing meta tag. *)
Variable price_property : string.

(** Modelled from the spec: [getProductJsonLd(document)] of common.js,
    "locates the embedded JSON-LD script node tagged as product data, parses
    its JSON payload, and returns the structured object", and fails with
    [MalformedStructuredData] "if no such node exists or its content is not
    parseable JSON". *)
Definition getProductJsonLd (dom : Document) : Completion JSON :=
  match productLd dom with
  | None => Throw MalformedStructuredData
  | Some payload =>
      match JSON_parse payload with
      | Some ld => Return ld
      | None => Throw MalformedStructuredData
      end
  end.

(** Modelled from the spec: [priceFromMeta(document)] of common.js, "reads
    a price-bearing meta property, parses it as a decimal currency amount,
    and converts to integer minor units", and fails with [PriceParseError]
    "if the value is not a valid decimal number". A page that declares no
    price has none (section 3: "may be absent if the page declares no
    price"; section 7: the error is for a "price field present but not a
    valid decimal"). *)
Definition priceFromMeta (dom : Document) : Completion (option Z) :=
  match getMetaProp dom price_property with
  | None => Return None
  | Some content =>
      match parse_decimal content with
      | Some a => Return (Some (to_centavos a))
      | None => Throw PriceParseError
      end
  end.

(** * The scraper: the dia extractor (scraper/dia.ts) *)

(** [parseHTML] of linkedom, over the pages it parses
    ([getDiaProduct_parsing] below has the others). *)
Variable parseHTML : Html → Document.

(** [ld.offers.offers[0].availability], read by read. *)
Definition first_offer_availability (ld : JSON) : Completion JsValue :=
  offers ← js_get (Some ld) (Name "offers");
  offers' ← js_get offers (Name "offers");
  first ← js_get offers' (Index 0);
  js_get first (Name "availability").

Definition getDiaProduct (html : Html) : Completion Precioish :=
  let dom := parseHTML html in
  match getMetaProp dom "product:retailer_item_id" with
  | Some (String _ _ as ean) =>
      precioCentavos ← priceFromMeta dom;
      ld ← getProductJsonLd dom;
      availability ← first_offer_availability ld;
      let inStock := strict_eq_string availability "http://schema.org/InStock" in
      Return {| ean := ean;
                precioCentavos := precioCentavos;
                inStock := Some inStock |}
  | Some EmptyString | None => Throw (Error "No encontré el ean")
  end.

End Toolkit.

Section Parsing.
Variable JSON_parse : string → option JSON.
Variable price_property : string.

(** What [parseHTML] of linkedom throws, where it throws: it does on a
    Buffer. *)
Variable ParseError : Type.
Variable parseHTML : Html → ParseError + Document.

(** [getDiaProduct] from its first line on, over a [parseHTML] that can
    throw. Nothing catches what [parseHTML] throws: it ends the call before
    anything is read of the page. Over the document [parseHTML] returns the
    function goes on as [getDiaProduct] does. *)
Definition getDiaProduct_parsing (html : Html)
    : ParseError + Completion Precioish :=
  match parseHTML html with
  | inl thrown => inl thrown
  | inr dom => inr (getDiaProduct JSON_parse price_property (λ _, dom) html)
  end.

End Parsing.

(** * The specification's sentences, and sample data *)


(** An observation of the declared table. *)
Definition observation (i : Z) (e : string) (t : Z) : Schema.Precio :=
  {| Schema.id := i; Schema.ean := e; Schema.fetchedAt := t;
     Schema.precioCentavos := Some 19990; Schema.inStock := Some true;
     Schema.url := None |}.


(** A table of the persisted layout: four observations of one product, the
    latest without a name, the one before with an empty name; and one
    observation of another product. *)
Definition named (i : Z) (e : string) (t : Z) (n : option string) : NamedPrecio :=
  {| columns := observation i e t; name := n |}.

Definition sample_table : list NamedPrecio :=
  [ named 1 "7790001" 300 None;
    named 2 "7790002" 400 (Some "Yerba");
    named 3 "7790001" 100 (Some "Leche");
    named 4 "7790001" 200 (Some "Leche entera");
    named 5 "7790001" 250 (Some "") ].

Definition sample_history : list NamedPrecio :=
  [ named 3 "7790001" 100 (Some "Leche");
    named 4 "7790001" 200 (Some "Leche entera");
    named 5 "7790001" 250 (Some "");
    named 1 "7790001" 300 None ].

(** The error of dia.ts for a page without EAN. Its message is Spanish for
    "I did not find the ean"; the specification names it MissingIdentifier
    ("no EAN found"). *)
Definition MissingIdentifier : Exn := Error "No encontré el ean".

(** The errors the specification names for an extraction; the engine's
    [TypeError] is none of them. *)
Definition named_error (e : Exn) : bool :=
  match e with
  | Error message => bool_decide (Error message = MissingIdentifier)
  | TypeError _ _ => false
  | MalformedStructuredData | PriceParseError => true
  end.

(** The value at [offers.offers] of a JSON-LD tree, [None] where the path
    is missing: where the tree or its [offers] is no object, or has no such
    member. *)
Definition offers_of (ld : JSON) : JsValue :=
  match ld with
  | JObject ms =>
      match member "offers" ms with
      | Some (JObject ms') => member "offers" ms'
      | _ => None
      end
  | _ => None
  end.

(** What stands at index 0 of a value. *)
Definition item_0 (v : JsValue) : JsValue :=
  match v with
  | Some (JArray xs) => xs !! 0%nat
  | Some (JObject ms) => member "0" ms
  | Some (JString t) => JString <$> char_at 0 t
  | _ => None
  end.

(** The first offer is there to be read: index 0 of [offers.offers] holds a
    value other than [null]. *)
Definition first_offer_present (ld : JSON) : Prop :=
  ∃ offer, item_0 (offers_of ld) = Some offer ∧ offer ≠ JNull.

(** The JSON-LD shape of a dia product page: an object whose [offers] is an
    object whose [offers] is an array that begins with an offer object. *)
Definition has_first_offer (ld : JSON) (offer : list (string * JSON)) : Prop :=
  ∃ rest, offers_of ld = Some (JArray (JObject offer :: rest)).

Section KnownShape.
Variable JSON_parse : string → option JSON.
Variable price_property : string.

(** A page of the shape the dia extractor knows: a meta tag with the EAN,
    not empty; no price meta tag, or one whose content is a valid decimal
    number; and a product JSON-LD node that parses to a tree with a first
    offer. *)
Definition known_shape (dom : Document) : Prop :=
  (∃ e, getMetaProp dom "product:retailer_item_id" = Some e ∧ e ≠ "")
  ∧ (getMetaProp dom price_property = None
     ∨ ∃ content a, getMetaProp dom price_property = Some content
                    ∧ parse_decimal content = Some a)
  ∧ ∃ payload ld offer,
      productLd dom = Some payload ∧ JSON_parse payload = Some ld
      ∧ has_first_offer ld offer.

End KnownShape.

(** Sample pages. The text of a JSON-LD node is written here by a short
    name, and [sample_JSON_parse] gives the tree of each name. *)
Definition in_stock_ld : JSON :=
  JObject [ ("@type", JString "Product");
            ("offers", JObject [ ("@type", JString "AggregateOffer");
                                 ("offers", JArray [ JObject [ ("@type", JString "Offer");
                                                               ("availability", JString "http://schema.org/InStock") ] ]) ]) ].

Definition no_offers_ld : JSON := JObject [ ("@type", JString "Product") ].

Definition text_offers_ld : JSON :=
  JObject [ ("offers", JObject [ ("offers", JString "x") ]) ].

Definition sample_JSON_parse (payload : string) : option JSON :=
  snd <$> List.find (λ m, bool_decide (m.1 = payload))
            [ ("ld:in-stock", in_stock_ld);
              ("ld:no-offers", no_offers_ld);
              ("ld:text-offers", text_offers_ld) ].

Definition page (ean_meta : list (string * string)) (price : string) (ld : string) : Document :=
  {| metas := ("og:type", "product") :: ean_meta
                ++ [ ("product:price:amount", price) ];
     productLd := Some ld |}.

Definition sample_parseHTML (html : Html) : Document :=
  match html with
  | HtmlString "fixture" =>
      page [ ("product:retailer_item_id", "7790001") ] "199.90" "ld:in-stock"
  | HtmlString "cheap" =>
      page [ ("product:retailer_item_id", "7790001") ] "12.34" "ld:in-stock"
  | HtmlString "priceless" =>
      page [ ("product:retailer_item_id", "7790001") ] "gratis" "ld:in-stock"
  | HtmlString "no-ean" => page [] "199.90" "ld:no-offers"
  | HtmlString "no-offers" =>
      page [ ("product:retailer_item_id", "7790001") ] "199.90" "ld:no-offers"
  | HtmlString "text-offers" =>
      page [ ("product:retailer_item_id", "7790001") ] "199.90" "ld:text-offers"
  | _ => {| metas := []; productLd := None |}
  end.

(** A page of the known shape whose price meta is a negative amount. *)
Definition refund_parseHTML (html : Html) : Document :=
  page [ ("product:retailer_item_id", "7790001") ] "-1.50" "ld:in-stock".

(** The dia extractor over the sample pages. *)
Definition sample_getDiaProduct : Html → Completion Precioish :=
  getDiaProduct sample_JSON_parse "product:price:amount" sample_parseHTML.

(** * The front page: the approximate count *)

Module FrontPage.

(** A row of [pg_catalog.pg_class] as far as the query reads it: the name
    of the relation, and the value of [reltuples::bigint] as the driver
    hands it over. *)
Record PgClass (V : Type) := {
  relname : string;
  reltuples_bigint : V
}.
Arguments relname {V} _.
Arguments reltuples_bigint {V} _.

(** A row of the answer: an object with the one selected column. *)
Record CountRow (V : Type) := {
  reltuples : V
}.
Arguments reltuples {V} _.

(** [count] is an answer to
    [SELECT reltuples::bigint FROM pg_catalog.pg_class WHERE relname = 'precios']:
    one row for each relation of that name, in whatever order. *)
Definition is_count_result {V} (pg_class : list (PgClass V))
    (count : list (CountRow V)) : Prop :=
  count ≡ₚ (λ c, {| reltuples := reltuples_bigint c |})
             <$> filter (λ c, relname c = "precios") pg_class.

(** The argument of a call of [setHeaders]. *)
Definition Headers : Type := list (string * string).

(** The object [load] returns. *)
Record PageData (V : Type) := {
  count : V
}.
Arguments count {V} _.

(** The body of [load] from the [await] on, [awaited] being how the query
    ended: the calls of [setHeaders] it has made, and how it ends. A
    rejected query is thrown on at the [await], before [setHeaders] is
    reached. [count[0]] of an empty answer is [undefined], and reading
    [reltuples] of it throws, the headers already set. *)
Definition load_page {V} (awaited : Completion (list (CountRow V)))
    : list Headers * Completion (PageData V) :=
  match awaited with
  | Throw e => ([], Throw e)
  | Return rows =>
      ( [ [ ("Cache-Control", "public, max-age=600") ] ],
        match rows !! 0%nat with
        | Some first => Return {| count := reltuples first |}
        | None => Throw (TypeError Undefined "reltuples")
        end )
  end.

(** [load({ setHeaders })] over a database whose catalog is [pg_class]:
    the query is answered, or it is rejected with some error. *)
Inductive load {V} (pg_class : list (PgClass V))
    : list Headers * Completion (PageData V) → Prop :=
| load_answered rows :
    is_count_result pg_class rows → load pg_class (load_page (Return rows))
| load_rejected e :
    load pg_class (load_page (Throw e)).

End FrontPage.



(** * More of the query layer's vocabulary, and more sample pages *)


(** Two named observations of one product fetched at the same time, and
    the two answers of the query over them. *)
Definition named_tie_table : list NamedPrecio :=
  [ named 1 "7790001" 100 (Some "Leche");
    named 2 "7790001" 100 (Some "Leche entera") ].

Definition named_tie_history : list NamedPrecio :=
  [ named 2 "7790001" 100 (Some "Leche entera");
    named 1 "7790001" 100 (Some "Leche") ].

(** The sample table without the observation of the other product. *)
Definition one_product_table : list NamedPrecio :=
  [ named 1 "7790001" 300 None;
    named 3 "7790001" 100 (Some "Leche");
    named 4 "7790001" 200 (Some "Leche entera");
    named 5 "7790001" 250 (Some "") ].

Definition two_offers_ld : JSON :=
  JObject [ ("offers",
             JObject [ ("offers",
                        JArray [ JObject [ ("availability", JString "http://schema.org/OutOfStock") ];
                                 JObject [ ("availability", JString "http://schema.org/InStock") ] ]) ]) ].

Definition more_JSON_parse (payload : string) : option JSON :=
  if decide (payload = "ld:two-offers") then Some two_offers_ld
  else sample_JSON_parse payload.

Definition more_parseHTML (html : Html) : Document :=
  match html with
  | HtmlString "empty-ean" =>
      page [ ("product:retailer_item_id", "") ] "199.90" "ld:in-stock"
  | HtmlString "broken" =>
      {| metas := [ ("product:retailer_item_id", "7790001");
                    ("product:price:amount", "gratis") ];
         productLd := None |}
  | HtmlString "two-offers" =>
      page [ ("product:retailer_item_id", "7790001") ] "199.90" "ld:two-offers"
  | _ => sample_parseHTML html
  end.

(** A parser that throws on a Buffer, with the message of the error. *)
Definition text_only_parseHTML (html : Html) : string + Document :=
  match html with
  | HtmlBuffer _ => inl "charCodeAt is not a function"
  | HtmlString _ => inr (sample_parseHTML html)
  end.

Definition more_getDiaProduct : Html → Completion Precioish :=
  getDiaProduct more_JSON_parse "product:price:amount" more_parseHTML.

(** * Facts about [findLast] *)

Section FindLast.
Context {A : Type} (p : A → bool).

Lemma findLast_None l :
  findLast p l = None ↔ Forall (λ x, p x = false) l.
Proof.
  induction l as [|x l IH]; simpl.
  - split; [constructor | done].
  - rewrite Forall_cons. destruct (findLast p l) as [y|].
    + split; [done | intros [_ Hl]]. by apply IH in Hl.
    + destruct (p x); split; try done.
      * by intros [? _].
      * intros _. split; [done | by apply IH].
Qed.

Lemma findLast_Some l x :
  findLast p l = Some x →
  ∃ earlier later,
    l = earlier ++ x :: later ∧ p x = true ∧ Forall (λ y, p y = false) later.
Proof.
  induction l as [|a l IH]; simpl; [done|].
  destruct (findLast p l) as [y|] eqn:Hl.
  - intros [= ->]. destruct (IH eq_refl) as (l1 & l2 & -> & Hp & Hall).
    by exists (a :: l1), l2.
  - destruct (p a) eqn:Hp; [|done]. intros [= ->].
    exists [], l. split_and!; [done..|]. by apply findLast_None.
Qed.

Lemma findLast_app_found l1 l2 x :
  p x = true → Forall (λ y, p y = false) l2 →
  findLast p (l1 ++ x :: l2) = Some x.
Proof.
  intros Hp Hall. induction l1 as [|a l1 IH]; simpl.
  - apply findLast_None in Hall. by rewrite Hall, Hp.
  - by rewrite IH.
Qed.

End FindLast.

(** * Facts about the query *)

Section QueryFacts.
Context {Row : Type} `{RowLike Row}.
Implicit Types (table res : list Row) (e : string) (r : Row).

Lemma query_result_elem table e res r :
  is_query_result table e res → r ∈ res ↔ r ∈ table ∧ row_ean r = e.
Proof.
  intros [Hperm _]. rewrite Hperm. unfold where_ean.
  rewrite list_elem_of_filter. tauto.
Qed.

Lemma query_result_ordered table e res i j a b :
  is_query_result table e res →
  res !! i = Some a → res !! j = Some b → (i < j)%nat →
  row_fetchedAt a ≤ row_fetchedAt b.
Proof.
  intros [_ Hsorted] Hi Hj Hij.
  apply Sorted_StronglySorted in Hsorted; [|apply _].
  revert i j Hi Hj Hij.
  induction Hsorted as [|x l Hl IH Hx]; intros i j Hi Hj Hij; [done|].
  destruct j as [|j]; [lia|]. simpl in Hj.
  destruct i as [|i]; simpl in Hi.
  - injection Hi as ->. rewrite Forall_forall in Hx.
    apply Hx. by eapply list_elem_of_lookup_2.
  - apply (IH i j); [done..|lia].
Qed.

Lemma query_result_before table e res earlier r later r' :
  is_query_result table e res → res = earlier ++ r :: later →
  r' ∈ earlier → row_fetchedAt r' ≤ row_fetchedAt r.
Proof.
  intros Hres -> [i Hi]%list_elem_of_lookup.
  apply (query_result_ordered table e _ i (length earlier) r' r Hres).
  - by rewrite lookup_app_l by by eapply lookup_lt_Some.
  - by rewrite list_lookup_middle.
  - by eapply lookup_lt_Some.
Qed.



Lemma query_result_nil table e res :
  is_query_result table e res →
  res = [] ↔ ∀ r, r ∈ table → row_ean r ≠ e.
Proof.
  intros Hres. split.
  - intros -> r Hr He.
    assert (r ∈ []) as Hin by (by apply (query_result_elem table e)).
    by apply not_elem_of_nil in Hin.
  - intros Hnone. destruct res as [|r res]; [done|].
    assert (r ∈ r :: res) as Hin by apply list_elem_of_here.
    apply (query_result_elem table e) in Hin as [Hr He]; [|done].
    by destruct (Hnone r Hr).
Qed.

Lemma load_page_nil res :
  load_page res = HttpError 404 "Not Found" ↔ res = [].
Proof. destruct res; simpl; split; done. Qed.

End QueryFacts.

(** * Facts about the engine's answer *)



Section EngineFacts.
Context {Row : Type} `{RowLike Row}.
Implicit Types (table rows : list Row) (e : string) (r : Row).









End EngineFacts.

(** * The query layer: what the specification states *)

Section QueryClaims.
Context {Row : Type} `{RowLike Row}.
Implicit Types (table res : list Row) (e : string) (r : Row).

(** C1. The metadata [load] returns for an EAN is a stored row of that EAN
    with a non-empty name whose [fetchedAt] no other such row exceeds, the
    rows after it in the history having no name; and [load] returns no
    metadata exactly when the EAN has no stored row with a non-empty name. *)
Theorem load_meta_latest_named table e out :
  load table e out →
  (∀ r, meta_of out = Some r →
     named_row table e r
     ∧ (∀ r', named_row table e r' → row_fetchedAt r' ≤ row_fetchedAt r)
     ∧ ∃ earlier later,
         out = PageData (earlier ++ r :: later) (Some r)
         ∧ Forall (λ p, truthy (row_name p) = false) later)
  ∧ (meta_of out = None ↔ ∀ r, ¬ named_row table e r).
Proof.
  intros [res Hres]. split.
  - intros r Hmeta. unfold load_page in *.
    destruct (length res =? 0)%nat; [done|]. simpl in Hmeta.
    rewrite Hmeta.
    apply findLast_Some in Hmeta as (earlier & later & Heq & Hname & Hlater).
    assert (r ∈ res) as Hin.
    { rewrite Heq. apply elem_of_app. right. apply list_elem_of_here. }
    apply (query_result_elem table e) in Hin as [Hr He]; [|done].
    split_and!; [done..| |exists earlier, later; by rewrite Heq].
    intros r' (Hr' & He' & Hname').
    assert (r' ∈ res) as Hin' by (by apply (query_result_elem table e)).
    rewrite Heq in Hin'.
    apply elem_of_app in Hin' as [Hbefore|Hafter].
    + by eapply query_result_before.
    + apply elem_of_cons in Hafter as [->|Hafter]; [lia|].
      rewrite Forall_forall in Hlater. apply Hlater in Hafter. congruence.
  - unfold load_page. destruct res as [|r0 res']; simpl.
    + split; [|done]. intros _ r (Hr & He & _).
      assert (r ∈ []) as Hin by (by apply (query_result_elem table e)).
      by apply not_elem_of_nil in Hin.
    + change (match findLast (λ p, truthy (row_name p)) res' with
              | Some y => Some y
              | None => if truthy (row_name r0) then Some r0 else None
              end) with (findLast (λ p, truthy (row_name p)) (r0 :: res')).
      rewrite findLast_None, Forall_forall. split.
      * intros Hall r (Hr & He & Hname).
        assert (r ∈ r0 :: res') as Hin by (by apply (query_result_elem table e)).
        apply Hall in Hin. congruence.
      * intros Hnone r Hin.
        apply (query_result_elem table e) in Hin as [Hr He]; [|done].
        destruct (truthy (row_name r)) eqn:Hname; [|done].
        by destruct (Hnone r).
Qed.


(** C6. Of an EAN with no stored observation the history is the empty
    sequence, an answer like any other, and [load] ends with the 404
    "Not Found"; of an EAN with an observation the history is not empty and
    [load] returns the page's data; the 404 is given for the EAN without
    observation and for no other. *)
Theorem load_not_found_iff_no_observation table e out :
  load table e out →
  ((∀ r, r ∈ table → row_ean r ≠ e) →
     is_query_result table e []
     ∧ (∀ res, is_query_result table e res → res = [])
     ∧ out = HttpError 404 "Not Found")
  ∧ ((∃ r, r ∈ table ∧ row_ean r = e) →
       ∃ res meta, out = PageData res meta ∧ res ≠ []
                   ∧ is_query_result table e res)
  ∧ (out = HttpError 404 "Not Found" ↔ ∀ r, r ∈ table → row_ean r ≠ e).
Proof.
  intros [res Hres]. split_and!.
  - intros Hnone.
    assert (res = []) as -> by (by apply (query_result_nil table e)).
    split_and!; [done| |done].
    intros res' Hres'. by apply (query_result_nil table e).
  - intros (r & Hr & He).
    assert (res ≠ []) as Hne.
    { rewrite (query_result_nil table e res Hres). intros Hnone.
      by destruct (Hnone r Hr). }
    destruct res as [|r0 res']; [done|]. simpl. eauto.
  - rewrite load_page_nil. by apply query_result_nil.
Qed.

End QueryClaims.

(** The sample history answers the query over the sample table. *)
Lemma sample_history_is_result :
  is_query_result sample_table "7790001" sample_history.
Proof. split; compute_done. Defined.

(** On the sample table the metadata of product 7790001 is its second
    observation by time: the two fetched later have no name to show. *)
Lemma load_meta_latest_named_witness :
  load sample_table "7790001" (load_page sample_history)
  ∧ meta_of (load_page sample_history)
      = Some (named 4 "7790001" 200 (Some "Leche entera"))
  ∧ named_row sample_table "7790001" (named 4 "7790001" 200 (Some "Leche entera")).
Proof.
  pose proof (load_intro sample_table "7790001" sample_history
                sample_history_is_result) as Hload.
  split; [exact Hload|]. split; [reflexivity|].
  destruct (load_meta_latest_named sample_table "7790001"
              (load_page sample_history) Hload) as [Hfound _].
  apply Hfound. reflexivity.
Defined.


Lemma load_not_found_iff_no_observation_witness :
  load sample_table "7790003" (load_page [])
  ∧ load_page (Row := NamedPrecio) [] = HttpError 404 "Not Found"
  ∧ ∃ res meta, load_page sample_history = PageData res meta ∧ res ≠ []
                ∧ is_query_result sample_table "7790001" res.
Proof.
  assert (load sample_table "7790003" (load_page [])) as Hnone
    by (constructor; split; compute_done).
  split; [exact Hnone|]. split; [reflexivity|].
  destruct (load_not_found_iff_no_observation sample_table "7790001"
              (load_page sample_history)
              (load_intro sample_table "7790001" sample_history
                 sample_history_is_result)) as (_ & Hsome & _).
  apply Hsome.
  exists (named 3 "7790001" 100 (Some "Leche")). split; [compute_done|done].
Defined.

(** * The table declaration against the persisted layout *)

(** C2, on the code. The table as declared has the first six fields of the
    persisted layout, each of its type and nullability, and no [name]: the
    row objects [load] searches have no [name] to read, and over rows of the
    declared table [load] finds no metadata, whatever is stored. *)
Theorem precios_declares_no_name :
  Schema.shape Schema.precios = take 6 Schema.persistedLayout
  ∧ Schema.shape Schema.precios ≠ Schema.persistedLayout
  ∧ ("name" ∉ fst <$> Schema.precios)
  ∧ (∀ res : list Schema.Precio, meta_of (load_page res) = None)
  ∧ load_page [observation 1 "7790001" 100]
      = PageData [observation 1 "7790001" 100] None.
Proof.
  split_and!; [reflexivity|compute_done|compute_done| |reflexivity].
  intros res. unfold load_page. destruct (length res =? 0)%nat; [done|].
  simpl. by apply findLast_None, Forall_forall.
Qed.

(** * Facts about the toolkit *)

Lemma getMetaProp_None dom prop :
  getMetaProp dom prop = None ↔ prop ∉ (fst <$> metas dom).
Proof.
  unfold getMetaProp. induction (metas dom) as [|[k v] ms IH]; simpl.
  - split; [intros _; apply not_elem_of_nil | done].
  - rewrite not_elem_of_cons. case_bool_decide as Hk; simpl in *.
    + split; [done | intros [Hne _]; congruence].
    + rewrite IH. split; [intros ?; split; [congruence | done] | tauto].
Qed.

Lemma digit_value_nonneg c d : digit_value c = Some d → 0 ≤ d.
Proof. unfold digit_value. case_decide; intros [= <-]; lia. Qed.

Lemma digits_value_nonneg s acc v :
  digits_value acc s = Some v → 0 ≤ acc → 0 ≤ v.
Proof.
  revert acc. induction s as [|c s IH]; simpl; intros acc.
  - intros [= <-]. done.
  - destruct (digit_value c) as [d|] eqn:Hd; [|done].
    apply digit_value_nonneg in Hd. intros Hv Hacc.
    apply (IH (10 * acc + d)); [done | lia].
Qed.

Lemma parse_unsigned_nonneg s a : parse_unsigned s = Some a → 0 ≤ units a.
Proof.
  unfold parse_unsigned.
  destruct (split_point s) as [[|c whole] [[|c' frac]|]]; try done.
  - destruct (digits_value 0 (String c whole)) as [w|] eqn:Hw; [|done].
    cbn [mbind option_bind].
    destruct (digits_value w (String c' frac)) as [u|] eqn:Hu; [|done].
    intros [= <-]. simpl.
    apply digits_value_nonneg in Hw; [|done].
    by apply digits_value_nonneg in Hu.
  - destruct (digits_value 0 (String c whole)) as [w|] eqn:Hw; [|done].
    intros [= <-]. simpl. by apply digits_value_nonneg in Hw.
Qed.

(** An unsigned decimal is a decimal: the first character of one is a
    digit, never the sign. *)
Lemma parse_unsigned_decimal s a :
  parse_unsigned s = Some a → parse_decimal s = Some a.
Proof.
  intros Hs. unfold parse_decimal.
  destruct s as [|c s']; [done|].
  destruct (decide (c = "-"%char)) as [->|Hc].
  - exfalso. revert Hs. unfold parse_unsigned. simpl.
    destruct (split_point s') as [whole [[|c' frac]|]]; done.
  - destruct c as [[] [] [] [] [] [] [] []]; done.
Qed.

Lemma to_centavos_nonneg a : 0 ≤ units a → 0 ≤ to_centavos a.
Proof.
  intros Hu. unfold to_centavos.
  assert (0 < 10 ^ Z.of_nat (decimals a)) by (apply Z.pow_pos_nonneg; lia).
  apply Z.div_pos; lia.
Qed.

(** The minor units are negative exactly when the amount is below minus
    half a centavo. *)
Lemma to_centavos_sign a :
  0 ≤ to_centavos a ↔ - 10 ^ Z.of_nat (decimals a) ≤ 2 * (100 * units a).
Proof.
  unfold to_centavos.
  assert (0 < 10 ^ Z.of_nat (decimals a)) by (apply Z.pow_pos_nonneg; lia).
  split.
  - intros Hpos.
    destruct (decide (- 10 ^ Z.of_nat (decimals a) ≤ 2 * (100 * units a)))
      as [|Hneg]; [done|].
    assert ((2 * (100 * units a) + 10 ^ Z.of_nat (decimals a))
              `div` (2 * 10 ^ Z.of_nat (decimals a)) < 0); [|lia].
    apply Z.div_lt_upper_bound; lia.
  - intros Hle. apply Z.div_pos; lia.
Qed.

(** [to_centavos a] is the integer nearest to a hundred times the amount:
    it is within a half of it, the upper half excluded. *)
Lemma to_centavos_nearest a :
  let scale := 10 ^ Z.of_nat (decimals a) in
  (2 * to_centavos a - 1) * scale ≤ 2 * (100 * units a)
  ∧ 2 * (100 * units a) < (2 * to_centavos a + 1) * scale.
Proof.
  intros scale. unfold to_centavos. fold scale.
  assert (0 < scale) by (apply Z.pow_pos_nonneg; lia).
  pose proof (Z.mul_div_le (2 * (100 * units a) + scale) (2 * scale)).
  pose proof (Z.mul_succ_div_gt (2 * (100 * units a) + scale) (2 * scale)).
  lia.
Qed.

(** * Facts about the reads of the JSON-LD tree *)

Lemma key_string_0 : key_string (Index 0) = "0".
Proof. reflexivity. Qed.

Lemma js_get_undefined k :
  js_get None k = Throw (TypeError Undefined (key_string k)).
Proof. reflexivity. Qed.

(** Reading [.offers] twice arrives at [offers_of], or throws on the way. *)
Lemma js_get_offers ld :
  (js_get (Some ld) (Name "offers") ≫= λ o, js_get o (Name "offers"))
    = Return (offers_of ld)
  ∨ offers_of ld = None
    ∧ ∃ base,
        (js_get (Some ld) (Name "offers") ≫= λ o, js_get o (Name "offers"))
          = Throw (TypeError base "offers").
Proof.
  destruct ld as [| | |t|xs|ms]; simpl; eauto 6.
  unfold offers_of. destruct (member "offers" ms) as [[| | |t|xs|ms']|];
    simpl; eauto 6.
Qed.

(** Reading [[0]] arrives at [item_0], or throws. *)
Lemma js_get_item_0 v :
  js_get v (Index 0) = Return (item_0 v)
  ∨ item_0 v = None ∧ ∃ base, js_get v (Index 0) = Throw (TypeError base "0").
Proof. destruct v as [[| | |t|xs|ms]|]; simpl; eauto. Qed.

(** Reading [.availability] of the first offer returns unless the offer is
    [undefined] or [null]. *)
Lemma js_get_availability v :
  match v with
  | None | Some JNull =>
      ∃ base, js_get v (Name "availability") = Throw (TypeError base "availability")
  | Some _ => ∃ a, js_get v (Name "availability") = Return a
  end.
Proof.
  destruct v as [[| | |t|xs|ms]|]; simpl; eauto.
Qed.

(** The chain of reads, the first two taken together. *)
Lemma first_offer_availability_eq ld :
  first_offer_availability ld
  = (offers ← (js_get (Some ld) (Name "offers") ≫= λ o, js_get o (Name "offers"));
     first ← js_get offers (Index 0);
     js_get first (Name "availability")).
Proof.
  unfold first_offer_availability.
  by destruct (js_get (Some ld) (Name "offers")).
Qed.

Lemma Completion_bind_Return {A B} (f : A → Completion B) a :
  (Return a ≫= f) = f a.
Proof. reflexivity. Qed.

Lemma Completion_bind_Throw {A B} (f : A → Completion B) e :
  (Throw e ≫= f) = Throw e.
Proof. reflexivity. Qed.

(** The chain of reads returns exactly when the first offer is present, and
    throws a [TypeError] otherwise. *)
Lemma first_offer_availability_returns ld :
  first_offer_present ld → ∃ a, first_offer_availability ld = Return a.
Proof.
  intros (offer & Hitem & Hnull). rewrite first_offer_availability_eq.
  destruct (js_get_offers ld) as [-> | (Hnone & _)].
  - rewrite Completion_bind_Return.
    destruct (js_get_item_0 (offers_of ld)) as [-> | (Hnone & _)];
      [|congruence].
    rewrite Completion_bind_Return, Hitem.
    pose proof (js_get_availability (Some offer)) as Ha.
    destruct offer; done.
  - rewrite Hnone in Hitem. done.
Qed.

Lemma first_offer_availability_throws ld :
  ¬ first_offer_present ld →
  ∃ base property, first_offer_availability ld = Throw (TypeError base property).
Proof.
  intros Habsent. rewrite first_offer_availability_eq.
  destruct (js_get_offers ld) as [-> | (_ & base & ->)];
    [|rewrite Completion_bind_Throw; eauto].
  rewrite Completion_bind_Return.
  destruct (js_get_item_0 (offers_of ld)) as [-> | (_ & base & ->)];
    [|rewrite Completion_bind_Throw; eauto].
  rewrite Completion_bind_Return.
  destruct (item_0 (offers_of ld)) as [offer|] eqn:Hitem; [|simpl; eauto].
  destruct offer; try (destruct Habsent; by eexists).
  simpl; eauto.
Qed.

Lemma first_offer_availability_of_offer ld offer :
  has_first_offer ld offer →
  first_offer_availability ld = Return (member "availability" offer).
Proof.
  intros [rest Hoffers]. rewrite first_offer_availability_eq.
  destruct (js_get_offers ld) as [-> | (Hnone & _)]; [|congruence].
  rewrite Completion_bind_Return, Hoffers. reflexivity.
Qed.

(** * The dia extractor: what the specification states *)

Section DiaClaims.
Variable JSON_parse : string → option JSON.
Variable price_property : string.
Variable parseHTML : Html → Document.

Local Abbreviation price_of := (priceFromMeta price_property).
Local Abbreviation product_ld := (getProductJsonLd JSON_parse).
Local Abbreviation extract := (getDiaProduct JSON_parse price_property parseHTML).

(** The extractor once the EAN is found: the price, the JSON-LD, the first
    offer, the record. *)
Lemma getDiaProduct_with_ean html e :
  getMetaProp (parseHTML html) "product:retailer_item_id" = Some e → e ≠ "" →
  extract html
  = (precioCentavos ← price_of (parseHTML html);
     ld ← product_ld (parseHTML html);
     availability ← first_offer_availability ld;
     Return {| ean := e; precioCentavos := precioCentavos;
               inStock := Some (strict_eq_string availability
                                  "http://schema.org/InStock") |}).
Proof.
  intros He Hne. unfold getDiaProduct. rewrite He.
  by destruct e.
Qed.

(** A record comes with a non-empty EAN, whatever the page. *)
Lemma getDiaProduct_ean_nonempty html r :
  extract html = Return r → ean r ≠ "".
Proof.
  unfold getDiaProduct.
  destruct (getMetaProp (parseHTML html) "product:retailer_item_id")
    as [[|c e]|]; [done| |done].
  destruct (price_of (parseHTML html)) as [price|]; [|done].
  destruct (product_ld (parseHTML html)) as [ld|]; [|done].
  rewrite !Completion_bind_Return.
  destruct (first_offer_availability ld) as [a|]; [|done].
  by intros [= <-].
Qed.

(** C3. On a page whose document has no meta tag of property
    [product:retailer_item_id] the dia extractor throws the error of the
    missing identifier, and returns no record. *)
Theorem getDiaProduct_without_ean html :
  "product:retailer_item_id" ∉ (fst <$> metas (parseHTML html)) →
  extract html = Throw MissingIdentifier
  ∧ named_error MissingIdentifier = true
  ∧ ∀ r, extract html ≠ Return r.
Proof.
  intros Hno%getMetaProp_None. unfold getDiaProduct.
  rewrite Hno. done.
Qed.

(** C4. On a page whose document has the EAN meta 7790001 and the price
    meta 199.90, and whose product JSON-LD has a first offer of
    availability [http://schema.org/InStock], the dia extractor returns the
    record of that EAN, 19990 centavos, in stock. *)
Theorem getDiaProduct_fixture html payload ld offer :
  getMetaProp (parseHTML html) "product:retailer_item_id" = Some "7790001" →
  getMetaProp (parseHTML html) price_property = Some "199.90" →
  productLd (parseHTML html) = Some payload →
  JSON_parse payload = Some ld →
  has_first_offer ld offer →
  member "availability" offer = Some (JString "http://schema.org/InStock") →
  extract html
  = Return {| ean := "7790001"; precioCentavos := Some 19990;
              inStock := Some true |}.
Proof.
  intros Hean Hprice Hnode Hparse Hoffer Havailability.
  rewrite (getDiaProduct_with_ean html "7790001") by done.
  assert (price_of (parseHTML html) = Return (Some 19990)) as ->
    by (unfold priceFromMeta; by rewrite Hprice).
  assert (product_ld (parseHTML html) = Return ld) as ->
    by (unfold getProductJsonLd; by rewrite Hnode, Hparse).
  rewrite !Completion_bind_Return.
  rewrite (first_offer_availability_of_offer ld offer Hoffer), Havailability.
  reflexivity.
Qed.

(** C7, as the code has it. On a page of the known shape the dia extractor
    returns a record; its EAN is not empty; it has no price when the page
    has no price meta, and otherwise its price is the integer nearest to a
    hundred times the amount of the price meta, which is not negative
    exactly when the amount is not below minus half a centavo, and so
    whenever the content is written without a sign. The extractor checks
    no sign. *)
Theorem getDiaProduct_known_shape html :
  known_shape JSON_parse price_property (parseHTML html) →
  ∃ r, extract html = Return r
       ∧ ean r ≠ ""
       ∧ match getMetaProp (parseHTML html) price_property with
         | None => precioCentavos r = None
         | Some content =>
             ∃ a, parse_decimal content = Some a
                  ∧ precioCentavos r = Some (to_centavos a)
                  ∧ (0 ≤ to_centavos a
                     ↔ - 10 ^ Z.of_nat (decimals a) ≤ 2 * (100 * units a))
                  ∧ (is_Some (parse_unsigned content) → 0 ≤ to_centavos a)
         end.
Proof.
  intros ((e & He & Hne) & Hprice & payload & ld & offer & Hnode & Hparse & Hoffer).
  assert (product_ld (parseHTML html) = Return ld) as Hld
    by (unfold getProductJsonLd; by rewrite Hnode, Hparse).
  rewrite (getDiaProduct_with_ean html e) by done.
  unfold priceFromMeta.
  destruct Hprice as [-> | (content & a & -> & Ha)].
  - rewrite Hld, !Completion_bind_Return.
    rewrite (first_offer_availability_of_offer ld offer Hoffer).
    rewrite Completion_bind_Return. by eexists.
  - rewrite Ha, Hld, !Completion_bind_Return.
    rewrite (first_offer_availability_of_offer ld offer Hoffer).
    rewrite Completion_bind_Return. eexists. split_and!; [done..|].
    exists a. split_and!; [done..|apply to_centavos_sign|].
    intros [a' Ha']. pose proof (parse_unsigned_decimal _ _ Ha') as Hsame.
    rewrite Ha in Hsame. injection Hsame as ->.
    by apply to_centavos_nonneg, (parse_unsigned_nonneg content).
Qed.

(** C8. Of a price meta whose content is a valid decimal number
    [priceFromMeta] returns a hundred times the amount, rounded to the
    nearest integer; of 12.34 it returns 1234 and of 0.00 it returns 0; of a
    content that is no valid decimal number it fails with
    [PriceParseError]. *)
Theorem priceFromMeta_minor_units dom content :
  getMetaProp dom price_property = Some content →
  match parse_decimal content with
  | Some a =>
      price_of dom = Return (Some (to_centavos a))
      ∧ (2 * to_centavos a - 1) * 10 ^ Z.of_nat (decimals a) ≤ 2 * (100 * units a)
      ∧ 2 * (100 * units a) < (2 * to_centavos a + 1) * 10 ^ Z.of_nat (decimals a)
  | None => price_of dom = Throw PriceParseError
  end
  ∧ (content = "12.34" → price_of dom = Return (Some 1234))
  ∧ (content = "0.00" → price_of dom = Return (Some 0)).
Proof.
  intros Hmeta. unfold priceFromMeta. rewrite Hmeta. split_and!.
  - destruct (parse_decimal content) as [a|]; [|done].
    split; [done|]. apply to_centavos_nearest.
  - by intros ->.
  - by intros ->.
Qed.

(** C10, as the code has it. Once the EAN, the price and the JSON-LD are
    there, nothing stands between the extractor and the read of
    [ld.offers.offers[0].availability]: where [offers.offers] is missing or
    an empty array it throws a [TypeError], none of the named errors, and a
    [TypeError] is all it can throw; it returns a record exactly when index
    0 of [offers.offers] holds a value other than [null], as the first item
    of a non-empty array does unless it is [null]. *)
Theorem getDiaProduct_unguarded_offer html e price ld :
  getMetaProp (parseHTML html) "product:retailer_item_id" = Some e → e ≠ "" →
  price_of (parseHTML html) = Return price →
  product_ld (parseHTML html) = Return ld →
  (offers_of ld = None ∨ offers_of ld = Some (JArray []) →
     ∃ base property, extract html = Throw (TypeError base property))
  ∧ (∀ exn, extract html = Throw exn →
       named_error exn = false ∧ ∃ base property, exn = TypeError base property)
  ∧ ((∃ r, extract html = Return r) ↔ first_offer_present ld)
  ∧ (∀ offer rest, offers_of ld = Some (JArray (offer :: rest)) → offer ≠ JNull →
       ∃ r, extract html = Return r).
Proof.
  intros He Hne Hprice Hld.
  rewrite (getDiaProduct_with_ean html e) by done.
  rewrite Hprice, Hld, !Completion_bind_Return.
  assert (¬ first_offer_present ld →
          ∃ base property,
            (availability ← first_offer_availability ld;
             Return {| ean := e; precioCentavos := price;
                       inStock := Some (strict_eq_string availability
                                          "http://schema.org/InStock") |})
            = Throw (TypeError base property)) as Hthrows.
  { intros (base & property & ->)%first_offer_availability_throws. eauto. }
  assert (first_offer_present ld →
          ∃ r,
            (availability ← first_offer_availability ld;
             Return {| ean := e; precioCentavos := price;
                       inStock := Some (strict_eq_string availability
                                          "http://schema.org/InStock") |})
            = Return r) as Hreturns.
  { intros [a ->]%first_offer_availability_returns. eauto. }
  split_and!.
  - intros Hmissing. apply Hthrows. intros (offer & Hitem & _).
    destruct Hmissing as [Hm|Hm]; rewrite Hm in Hitem; done.
  - intros exn Hexn.
    destruct (first_offer_availability ld) as [a|exn'] eqn:Hreads; [done|].
    rewrite Completion_bind_Throw in Hexn. injection Hexn as <-.
    assert (¬ first_offer_present ld) as Habsent.
    { intros [a Ha]%first_offer_availability_returns. congruence. }
    apply first_offer_availability_throws in Habsent as (base & property & Hthrow).
    rewrite Hreads in Hthrow. injection Hthrow as ->. eauto.
  - split; [|done]. intros [r Hr].
    destruct (first_offer_availability ld) as [a|exn] eqn:Hreads; [|done].
    destruct (item_0 (offers_of ld)) as [offer|] eqn:Hitem.
    + exists offer. split; [done|]. intros ->.
      assert (¬ first_offer_present ld) as Habsent.
      { intros (offer & Hitem' & Hnull). congruence. }
      apply first_offer_availability_throws in Habsent as (? & ? & ?).
      congruence.
    + assert (¬ first_offer_present ld) as Habsent.
      { intros (offer & Hitem' & _). congruence. }
      apply first_offer_availability_throws in Habsent as (? & ? & ?).
      congruence.
  - intros offer rest Hoffers Hnull. apply Hreturns.
    exists offer. by rewrite Hoffers.
Qed.

End DiaClaims.

(** * The dia extractor on the sample pages *)

Lemma getDiaProduct_without_ean_witness :
  ("product:retailer_item_id"
     ∉ fst <$> metas (sample_parseHTML (HtmlString "no-ean")))
  ∧ sample_getDiaProduct (HtmlString "no-ean") = Throw MissingIdentifier.
Proof.
  assert ("product:retailer_item_id"
            ∉ fst <$> metas (sample_parseHTML (HtmlString "no-ean"))) as Hno
    by compute_done.
  split; [exact Hno|].
  destruct (getDiaProduct_without_ean sample_JSON_parse "product:price:amount"
              sample_parseHTML (HtmlString "no-ean") Hno) as [Hthrow _].
  exact Hthrow.
Defined.

Lemma getDiaProduct_fixture_witness :
  getMetaProp (sample_parseHTML (HtmlString "fixture")) "product:retailer_item_id"
    = Some "7790001"
  ∧ getMetaProp (sample_parseHTML (HtmlString "fixture")) "product:price:amount"
    = Some "199.90"
  ∧ offers_of in_stock_ld
    = Some (JArray [ JObject [ ("@type", JString "Offer");
                               ("availability", JString "http://schema.org/InStock") ] ])
  ∧ sample_getDiaProduct (HtmlString "fixture")
    = Return {| ean := "7790001"; precioCentavos := Some 19990;
                inStock := Some true |}.
Proof.
  split_and!; [reflexivity..|].
  apply (getDiaProduct_fixture sample_JSON_parse "product:price:amount"
           sample_parseHTML (HtmlString "fixture") "ld:in-stock" in_stock_ld
           [ ("@type", JString "Offer");
             ("availability", JString "http://schema.org/InStock") ]);
    [reflexivity..| by exists [] | reflexivity].
Defined.

Lemma fixture_known_shape :
  known_shape sample_JSON_parse "product:price:amount"
    (sample_parseHTML (HtmlString "fixture")).
Proof.
  split_and!.
  - by exists "7790001".
  - right. by exists "199.90", {| units := 19990; decimals := 2 |}.
  - exists "ld:in-stock", in_stock_ld,
      [ ("@type", JString "Offer");
        ("availability", JString "http://schema.org/InStock") ].
    split_and!; [reflexivity..|]. by exists [].
Defined.

Lemma getDiaProduct_known_shape_witness :
  known_shape sample_JSON_parse "product:price:amount"
    (sample_parseHTML (HtmlString "fixture"))
  ∧ ∃ r, sample_getDiaProduct (HtmlString "fixture") = Return r
         ∧ ean r ≠ ""
         ∧ ∃ a, parse_decimal "199.90" = Some a
                ∧ precioCentavos r = Some (to_centavos a)
                ∧ (0 ≤ to_centavos a
                   ↔ - 10 ^ Z.of_nat (decimals a) ≤ 2 * (100 * units a))
                ∧ (is_Some (parse_unsigned "199.90") → 0 ≤ to_centavos a).
Proof.
  split; [exact fixture_known_shape|].
  exact (getDiaProduct_known_shape sample_JSON_parse "product:price:amount"
           sample_parseHTML (HtmlString "fixture") fixture_known_shape).
Defined.

Lemma refund_known_shape :
  known_shape sample_JSON_parse "product:price:amount"
    (refund_parseHTML (HtmlString "refund")).
Proof.
  split_and!.
  - by exists "7790001".
  - right. by exists "-1.50", {| units := -150; decimals := 2 |}.
  - exists "ld:in-stock", in_stock_ld,
      [ ("@type", JString "Offer");
        ("availability", JString "http://schema.org/InStock") ].
    split_and!; [reflexivity..|]. by exists [].
Qed.

(** C7, as stated, fails: a page of the known shape whose price meta is
    -1.50 is answered with a record of -150 centavos. *)
Lemma getDiaProduct_negative_price :
  known_shape sample_JSON_parse "product:price:amount"
    (refund_parseHTML (HtmlString "refund"))
  ∧ getDiaProduct sample_JSON_parse "product:price:amount" refund_parseHTML
      (HtmlString "refund")
    = Return {| ean := "7790001"; precioCentavos := Some (-150);
                inStock := Some true |}
  ∧ ¬ (0 ≤ -150).
Proof. split; [exact refund_known_shape|]. split; [reflexivity | lia]. Qed.

Lemma priceFromMeta_minor_units_witness :
  getMetaProp (sample_parseHTML (HtmlString "cheap")) "product:price:amount"
    = Some "12.34"
  ∧ priceFromMeta "product:price:amount" (sample_parseHTML (HtmlString "cheap"))
    = Return (Some 1234)
  ∧ getMetaProp (sample_parseHTML (HtmlString "priceless")) "product:price:amount"
    = Some "gratis"
  ∧ priceFromMeta "product:price:amount" (sample_parseHTML (HtmlString "priceless"))
    = Throw PriceParseError.
Proof.
  split_and!; [reflexivity| |reflexivity|].
  - destruct (priceFromMeta_minor_units "product:price:amount"
                (sample_parseHTML (HtmlString "cheap")) "12.34" eq_refl)
      as (_ & Hcheap & _).
    by apply Hcheap.
  - destruct (priceFromMeta_minor_units "product:price:amount"
                (sample_parseHTML (HtmlString "priceless")) "gratis" eq_refl)
      as (Hfails & _).
    exact Hfails.
Defined.

Lemma getDiaProduct_unguarded_offer_witness :
  getProductJsonLd sample_JSON_parse (sample_parseHTML (HtmlString "no-offers"))
    = Return no_offers_ld
  ∧ offers_of no_offers_ld = None
  ∧ ∃ base property,
      sample_getDiaProduct (HtmlString "no-offers")
      = Throw (TypeError base property).
Proof.
  split_and!; [reflexivity..|].
  destruct (getDiaProduct_unguarded_offer sample_JSON_parse "product:price:amount"
              sample_parseHTML (HtmlString "no-offers") "7790001" (Some 19990)
              no_offers_ld eq_refl ltac:(done) eq_refl eq_refl)
    as (Hmissing & _).
  apply Hmissing. by left.
Defined.

(** C10, as stated, fails twice. A page without EAN whose JSON-LD parses
    and has no [offers] is answered with the named error of the missing
    identifier, the read never reached. And a page whose [offers.offers] is
    the text [x], no array, is answered with a record: index 0 of a text is
    its first character, and the availability of a character is
    [undefined]. *)
Lemma getDiaProduct_offer_not_only_arrays :
  (getProductJsonLd sample_JSON_parse (sample_parseHTML (HtmlString "no-ean"))
     = Return no_offers_ld
   ∧ offers_of no_offers_ld = None
   ∧ sample_getDiaProduct (HtmlString "no-ean") = Throw MissingIdentifier
   ∧ named_error MissingIdentifier = true)
  ∧ (getProductJsonLd sample_JSON_parse (sample_parseHTML (HtmlString "text-offers"))
       = Return text_offers_ld
     ∧ offers_of text_offers_ld = Some (JString "x")
     ∧ sample_getDiaProduct (HtmlString "text-offers")
       = Return {| ean := "7790001"; precioCentavos := Some 19990;
                   inStock := Some false |}).
Proof. split_and!; reflexivity. Qed.

(** * More about the query layer *)

Lemma findLast_snoc {A} (p : A → bool) l x :
  findLast p (l ++ [x]) = if p x then Some x else findLast p l.
Proof.
  induction l as [|a l IH]; simpl.
  - by destruct (p x).
  - rewrite IH. by destruct (p x).
Qed.

Section QueryMore.
Context {Row : Type} `{RowLike Row}.
Implicit Types (table res : list Row) (e : string) (r : Row).

Lemma meta_of_load_page res :
  meta_of (load_page res) = findLast (λ p, truthy (row_name p)) res.
Proof. by destruct res. Qed.

Lemma load_page_cons r res :
  load_page (r :: res)
  = PageData (r :: res) (findLast (λ p, truthy (row_name p)) (r :: res)).
Proof. reflexivity. Qed.



(** The metadata found in an answer is a named row of the EAN that no named
    row of the EAN is fetched after. *)
Lemma found_meta_latest table e res r :
  is_query_result table e res →
  findLast (λ p, truthy (row_name p)) res = Some r →
  named_row table e r
  ∧ ∀ r', named_row table e r' → row_fetchedAt r' ≤ row_fetchedAt r.
Proof.
  intros Hres (earlier & later & Heq & Hname & Hlater)%findLast_Some.
  assert (r ∈ res) as Hin.
  { rewrite Heq. apply elem_of_app. right. apply list_elem_of_here. }
  apply (query_result_elem table e) in Hin as [Hr He]; [|done].
  split; [done|]. intros r' (Hr' & He' & Hname').
  assert (r' ∈ res) as Hin' by (by apply (query_result_elem table e)).
  rewrite Heq in Hin'. apply elem_of_app in Hin' as [Hbefore|Hafter].
  - by eapply query_result_before.
  - apply elem_of_cons in Hafter as [->|Hafter]; [lia|].
    rewrite Forall_forall in Hlater. apply Hlater in Hafter. congruence.
Qed.

Lemma no_meta_no_named table e res :
  is_query_result table e res →
  findLast (λ p, truthy (row_name p)) res = None ↔ ∀ r, ¬ named_row table e r.
Proof.
  intros Hres. rewrite findLast_None, Forall_forall. split.
  - intros Hall r (Hr & He & Hname).
    assert (r ∈ res) as Hin by (by apply (query_result_elem table e)).
    apply Hall in Hin. congruence.
  - intros Hnone r Hin.
    apply (query_result_elem table e) in Hin as [Hr He]; [|done].
    destruct (truthy (row_name r)) eqn:Hname; [|done].
    by destruct (Hnone r).
Qed.

(** An observation fetched after all the stored ones of its EAN stands last
    in every answer, after an answer over what was stored. *)
Lemma query_result_snoc_latest table e r res' :
  row_ean r = e →
  (∀ x, x ∈ table → row_ean x = e → row_fetchedAt x < row_fetchedAt r) →
  is_query_result (table ++ [r]) e res' →
  ∃ res, res' = res ++ [r] ∧ is_query_result table e res.
Proof.
  intros He Hlatest [Hperm Hsorted].
  unfold where_ean in Hperm. rewrite filter_app in Hperm.
  rewrite (filter_cons_True _ r []) in Hperm by done.
  change (filter (λ r0, row_ean r0 = e) []) with (@nil Row) in Hperm.
  assert (r ∈ res') as Hin.
  { rewrite Hperm. apply elem_of_app. right. apply list_elem_of_here. }
  apply list_elem_of_split in Hin as (l1 & l2 & ->).
  assert (l1 ++ l2 ≡ₚ filter (λ r0, row_ean r0 = e) table) as Hrest.
  { symmetry. apply Permutation_cons_app_inv with (a := r).
    rewrite Hperm. apply Permutation_cons_append. }
  apply Sorted_StronglySorted in Hsorted; [|apply _].
  apply StronglySorted_app in Hsorted as (Hcross & Hl1 & Hl2).
  apply StronglySorted_cons in Hl2 as [Hafter Hl2].
  assert (l2 = []) as ->.
  { destruct l2 as [|x l2]; [done|]. exfalso.
    apply Forall_cons in Hafter as [Hx _]. unfold fetchedAt_le in Hx.
    assert (x ∈ filter (λ r0, row_ean r0 = e) table) as Hxin.
    { rewrite <- Hrest. apply elem_of_app. right. apply list_elem_of_here. }
    apply list_elem_of_filter in Hxin as [Hex Hxt].
    specialize (Hlatest x Hxt Hex). lia. }
  exists l1. split; [done|]. rewrite app_nil_r in Hrest. split; [done|].
  by apply StronglySorted_Sorted.
Qed.

End QueryMore.

Section QueryExtras.
Context {Row : Type} `{RowLike Row}.
Implicit Types (table res : list Row) (e : string) (r : Row).

Lemma load_page_PageData res res0 m :
  load_page res = PageData res0 m → res0 = res ∧ res ≠ [].
Proof. destruct res; [done|]. rewrite load_page_cons. by intros [= <- _]. Qed.


(** X2. Whatever order the engine gives to rows fetched at the same time,
    two runs of [load] for an EAN over the same table agree on the 404, on
    the rows of the history, on whether there is metadata, and on the time
    the metadata was fetched. *)
Theorem load_agrees_up_to_ties table e out out' :
  load table e out → load table e out' →
  (out = HttpError 404 "Not Found" ↔ out' = HttpError 404 "Not Found")
  ∧ (∀ res m res' m',
       out = PageData res m → out' = PageData res' m' → res ≡ₚ res')
  ∧ (meta_of out = None ↔ meta_of out' = None)
  ∧ (∀ r r', meta_of out = Some r → meta_of out' = Some r' →
       row_fetchedAt r = row_fetchedAt r').
Proof.
  intros [res Hres] [res' Hres']. split_and!.
  - rewrite !load_page_nil.
    by rewrite (query_result_nil table e res), (query_result_nil table e res').
  - intros res0 m res0' m' [-> _]%load_page_PageData [-> _]%load_page_PageData.
    destruct Hres as [Hperm _], Hres' as [Hperm' _]. by rewrite Hperm, Hperm'.
  - rewrite !meta_of_load_page.
    by rewrite (no_meta_no_named table e res), (no_meta_no_named table e res').
  - intros r r'. rewrite !meta_of_load_page. intros Hr Hr'.
    apply (found_meta_latest table e) in Hr as [Hnamed Hmax]; [|done].
    apply (found_meta_latest table e) in Hr' as [Hnamed' Hmax']; [|done].
    specialize (Hmax r' Hnamed'). specialize (Hmax' r Hnamed). lia.
Qed.

(** X3. An observation of another product, wherever it stands in the
    table, changes nothing of what [load] can return for this one. *)
Theorem load_ignores_other_products table1 table2 r e out :
  row_ean r ≠ e →
  load (table1 ++ r :: table2) e out ↔ load (table1 ++ table2) e out.
Proof.
  intros Hother.
  assert (where_ean e (table1 ++ r :: table2) = where_ean e (table1 ++ table2))
    as Hsame.
  { unfold where_ean. rewrite !filter_app. by rewrite filter_cons_False. }
  split; intros [res [Hperm Hsorted]]; constructor; split; try done.
  - by rewrite <- Hsame.
  - by rewrite Hsame.
Qed.

(** X4. After an observation of the EAN fetched later than all the stored
    ones is added, [load] returns no 404: the history is an earlier history
    and then the new row, and the metadata is the new row when it has a
    name, and what it was before when it has none. *)
Theorem load_after_latest_observation table e r out :
  row_ean r = e →
  (∀ x, x ∈ table → row_ean x = e → row_fetchedAt x < row_fetchedAt r) →
  load (table ++ [r]) e out →
  ∃ res,
    is_query_result table e res
    ∧ out = PageData (res ++ [r])
              (if truthy (row_name r) then Some r else meta_of (load_page res)).
Proof.
  intros He Hlatest [res' Hres'].
  destruct (query_result_snoc_latest table e r res' He Hlatest Hres')
    as (res & -> & Hres).
  exists res. split; [done|]. rewrite meta_of_load_page.
  unfold load_page. rewrite length_app. simpl.
  replace (length res + 1 =? 0)%nat with false
    by (symmetry; apply Nat.eqb_neq; lia).
  by rewrite findLast_snoc.
Qed.

End QueryExtras.



Lemma named_tie_history_is_result :
  is_query_result named_tie_table "7790001" named_tie_history.
Proof. split; compute_done. Defined.

Lemma named_tie_table_is_result :
  is_query_result named_tie_table "7790001" named_tie_table.
Proof. split; compute_done. Defined.

(** Over the two observations fetched at the same time the two answers give
    different metadata, fetched at the same time. *)
Lemma load_agrees_up_to_ties_witness :
  load named_tie_table "7790001" (load_page named_tie_table)
  ∧ load named_tie_table "7790001" (load_page named_tie_history)
  ∧ meta_of (load_page named_tie_table)
    = Some (named 2 "7790001" 100 (Some "Leche entera"))
  ∧ meta_of (load_page named_tie_history)
    = Some (named 1 "7790001" 100 (Some "Leche"))
  ∧ row_fetchedAt (named 2 "7790001" 100 (Some "Leche entera"))
    = row_fetchedAt (named 1 "7790001" 100 (Some "Leche")).
Proof.
  pose proof (load_intro _ _ _ named_tie_table_is_result) as Hfirst.
  pose proof (load_intro _ _ _ named_tie_history_is_result) as Hsecond.
  split_and!; [exact Hfirst | exact Hsecond | reflexivity | reflexivity |].
  destruct (load_agrees_up_to_ties named_tie_table "7790001" _ _ Hfirst Hsecond)
    as (_ & _ & _ & Hsame).
  by apply Hsame.
Defined.

Lemma load_ignores_other_products_witness :
  row_ean (named 2 "7790002" 400 (Some "Yerba")) ≠ "7790001"
  ∧ load one_product_table "7790001" (load_page sample_history).
Proof.
  assert (row_ean (named 2 "7790002" 400 (Some "Yerba")) ≠ "7790001") as Hother
    by done.
  split; [exact Hother|].
  apply (load_ignores_other_products [named 1 "7790001" 300 None]
           [named 3 "7790001" 100 (Some "Leche");
            named 4 "7790001" 200 (Some "Leche entera");
            named 5 "7790001" 250 (Some "")]
           (named 2 "7790002" 400 (Some "Yerba")) "7790001" _ Hother).
  constructor. exact sample_history_is_result.
Defined.

Lemma sample_table_before_500 :
  ∀ x, x ∈ sample_table → row_ean x = "7790001" → row_fetchedAt x < 500.
Proof.
  assert (Forall (λ x, row_ean x = "7790001" → row_fetchedAt x < 500)
            sample_table) as Hall by compute_done.
  intros x Hx. rewrite Forall_forall in Hall. by apply Hall.
Defined.

(** A sixth observation, fetched last and without a name, joins the end of
    the history and leaves the metadata where it was. *)
Lemma load_after_latest_observation_witness :
  load (sample_table ++ [named 6 "7790001" 500 None]) "7790001"
    (load_page (sample_history ++ [named 6 "7790001" 500 None]))
  ∧ ∃ res,
      is_query_result sample_table "7790001" res
      ∧ load_page (sample_history ++ [named 6 "7790001" 500 None])
        = PageData (res ++ [named 6 "7790001" 500 None])
            (meta_of (load_page res)).
Proof.
  assert (load (sample_table ++ [named 6 "7790001" 500 None]) "7790001"
            (load_page (sample_history ++ [named 6 "7790001" 500 None])))
    as Hload by (constructor; split; compute_done).
  split; [exact Hload|].
  exact (load_after_latest_observation sample_table "7790001"
           (named 6 "7790001" 500 None) _ eq_refl sample_table_before_500 Hload).
Defined.

(** * The front page's count *)



(** * More about the dia extractor *)

Lemma strict_eq_string_true v s :
  strict_eq_string v s = true ↔ v = Some (JString s).
Proof.
  destruct v as [[| | |t| |]|]; simpl; try (split; done).
  rewrite bool_decide_eq_true. split; [by intros -> | by intros [= ->]].
Qed.

Section DiaExtras.
Variable JSON_parse : string → option JSON.
Variable price_property : string.
Variable parseHTML : Html → Document.

Local Abbreviation price_of := (priceFromMeta price_property).
Local Abbreviation product_ld := (getProductJsonLd JSON_parse).
Local Abbreviation extract := (getDiaProduct JSON_parse price_property parseHTML).

(** X6. The check of the EAN comes first, and an empty EAN is no EAN: a
    page whose EAN meta is missing or has an empty content is answered with
    the error of the missing identifier, whatever its price meta and its
    JSON-LD are. *)
Theorem getDiaProduct_empty_ean html :
  getMetaProp (parseHTML html) "product:retailer_item_id" = None
  ∨ getMetaProp (parseHTML html) "product:retailer_item_id" = Some "" →
  extract html = Throw MissingIdentifier.
Proof. unfold getDiaProduct. by intros [-> | ->]. Qed.

(** X7. With an EAN, what the toolkit throws is thrown on unchanged, the
    price's error before the JSON-LD is looked at, the JSON-LD's error when
    the price is there. *)
Theorem getDiaProduct_propagates html e :
  getMetaProp (parseHTML html) "product:retailer_item_id" = Some e → e ≠ "" →
  (∀ exn, price_of (parseHTML html) = Throw exn → extract html = Throw exn)
  ∧ (∀ price exn,
       price_of (parseHTML html) = Return price →
       product_ld (parseHTML html) = Throw exn →
       extract html = Throw exn).
Proof.
  intros He Hne. rewrite (getDiaProduct_with_ean _ _ _ html e) by done.
  split.
  - by intros exn ->.
  - by intros price exn -> ->.
Qed.

(** Over a parsed document, what the extractor throws is the error of the
    missing identifier, or what [priceFromMeta] threw, or what
    [getProductJsonLd] threw, or the [TypeError] of the read of a first
    offer that is not there. *)
Lemma getDiaProduct_throws_of_document html exn :
  extract html = Throw exn →
  exn = MissingIdentifier
  ∨ price_of (parseHTML html) = Throw exn
  ∨ product_ld (parseHTML html) = Throw exn
  ∨ ∃ ld base property,
      product_ld (parseHTML html) = Return ld
      ∧ ¬ first_offer_present ld
      ∧ exn = TypeError base property.
Proof.
  unfold getDiaProduct.
  destruct (getMetaProp (parseHTML html) "product:retailer_item_id")
    as [[|c e]|]; [by intros [= <-]; left | | by intros [= <-]; left].
  destruct (price_of (parseHTML html)) as [price|exn'];
    [|intros [= <-]; by right; left].
  destruct (product_ld (parseHTML html)) as [ld|exn'];
    [|intros [= <-]; by right; right; left].
  rewrite !Completion_bind_Return.
  destruct (first_offer_availability ld) as [a|exn'] eqn:Hreads; [done|].
  intros [= <-]. right; right; right.
  assert (¬ first_offer_present ld) as Habsent.
  { intros [a Ha]%first_offer_availability_returns. congruence. }
  destruct (first_offer_availability_throws ld Habsent)
    as (base & property & Hthrow).
  exists ld, base, property. split_and!; [done..|congruence].
Qed.

(** X9. The extractor returns a record exactly when the page has a
    non-empty EAN, [priceFromMeta] returns, [getProductJsonLd] returns and
    the first offer's availability can be read; the record then carries that
    EAN and that price unchanged, and a stock flag, never absent, that says
    whether the availability is the in-stock address. *)
Theorem getDiaProduct_returns_iff html r :
  extract html = Return r
  ↔ getMetaProp (parseHTML html) "product:retailer_item_id" = Some (ean r)
    ∧ ean r ≠ ""
    ∧ price_of (parseHTML html) = Return (precioCentavos r)
    ∧ ∃ ld availability,
        product_ld (parseHTML html) = Return ld
        ∧ first_offer_availability ld = Return availability
        ∧ inStock r
          = Some (strict_eq_string availability "http://schema.org/InStock").
Proof.
  split.
  - unfold getDiaProduct.
    destruct (getMetaProp (parseHTML html) "product:retailer_item_id")
      as [[|c e]|]; [done| |done].
    destruct (price_of (parseHTML html)) as [price|]; [|done].
    destruct (product_ld (parseHTML html)) as [ld|]; [|done].
    rewrite !Completion_bind_Return.
    destruct (first_offer_availability ld) as [a|] eqn:Hreads; [|done].
    intros [= <-]. simpl. split_and!; [done..|]. by exists ld, a.
  - intros (He & Hne & Hprice & ld & a & Hld & Hreads & Hstock).
    rewrite (getDiaProduct_with_ean _ _ _ html (ean r)) by done.
    rewrite Hprice, Hld, !Completion_bind_Return, Hreads.
    rewrite Completion_bind_Return, <- Hstock. by destruct r.
Qed.

(** X10. Of the offers only the first is looked at: where [offers.offers]
    is an array that begins with an offer object, the record's stock flag is
    true exactly when that first offer's availability is the text
    [http://schema.org/InStock], whatever the offers after it say. *)
Theorem getDiaProduct_first_offer_only html e price ld offer rest :
  getMetaProp (parseHTML html) "product:retailer_item_id" = Some e → e ≠ "" →
  price_of (parseHTML html) = Return price →
  product_ld (parseHTML html) = Return ld →
  offers_of ld = Some (JArray (JObject offer :: rest)) →
  ∃ stock,
    extract html
    = Return {| ean := e; precioCentavos := price; inStock := Some stock |}
    ∧ (stock = true
       ↔ member "availability" offer = Some (JString "http://schema.org/InStock")).
Proof.
  intros He Hne Hprice Hld Hoffers.
  rewrite (getDiaProduct_with_ean _ _ _ html e) by done.
  rewrite Hprice, Hld, !Completion_bind_Return.
  rewrite (first_offer_availability_of_offer ld offer) by (by exists rest).
  rewrite Completion_bind_Return.
  eexists. split; [done|]. apply strict_eq_string_true.
Qed.

End DiaExtras.

Section ParsingExtras.
Variable JSON_parse : string → option JSON.
Variable price_property : string.
Variable ParseError : Type.
Variable parseHTML : Html → ParseError + Document.

(** X8. Whatever the extractor throws is what [parseHTML] threw, nothing
    of the page read; or, over the document [parseHTML] returned, the error
    of the missing identifier, or what [priceFromMeta] threw, or what
    [getProductJsonLd] threw, or the [TypeError] of the read of a first
    offer that is not there: it throws nothing of its own besides. *)
Theorem getDiaProduct_throws_only html :
  match getDiaProduct_parsing JSON_parse price_property ParseError parseHTML html with
  | inl thrown => parseHTML html = inl thrown
  | inr outcome =>
      ∃ dom,
        parseHTML html = inr dom
        ∧ ∀ exn, outcome = Throw exn →
            exn = MissingIdentifier
            ∨ priceFromMeta price_property dom = Throw exn
            ∨ getProductJsonLd JSON_parse dom = Throw exn
            ∨ ∃ ld base property,
                getProductJsonLd JSON_parse dom = Return ld
                ∧ ¬ first_offer_present ld
                ∧ exn = TypeError base property
  end.
Proof.
  unfold getDiaProduct_parsing.
  destruct (parseHTML html) as [thrown|dom]; [done|].
  exists dom. split; [done|]. intros exn Hexn.
  by apply (getDiaProduct_throws_of_document JSON_parse price_property
              (λ _, dom) html exn).
Qed.

End ParsingExtras.

(** * The dia extractor on more sample pages *)

Lemma getDiaProduct_empty_ean_witness :
  getMetaProp (more_parseHTML (HtmlString "empty-ean")) "product:retailer_item_id"
    = Some ""
  ∧ more_getDiaProduct (HtmlString "empty-ean") = Throw MissingIdentifier.
Proof.
  split; [reflexivity|].
  apply (getDiaProduct_empty_ean more_JSON_parse "product:price:amount"
           more_parseHTML (HtmlString "empty-ean")).
  right. reflexivity.
Defined.

(** A page with an EAN, a price that is no number and no JSON-LD: the
    price's error is the one thrown. *)
Lemma getDiaProduct_propagates_witness :
  priceFromMeta "product:price:amount" (more_parseHTML (HtmlString "broken"))
    = Throw PriceParseError
  ∧ getProductJsonLd more_JSON_parse (more_parseHTML (HtmlString "broken"))
    = Throw MalformedStructuredData
  ∧ more_getDiaProduct (HtmlString "broken") = Throw PriceParseError.
Proof.
  split_and!; [reflexivity..|].
  destruct (getDiaProduct_propagates more_JSON_parse "product:price:amount"
              more_parseHTML (HtmlString "broken") "7790001" eq_refl ltac:(done))
    as [Hprice _].
  by apply Hprice.
Defined.

(** A Buffer is answered with the parser's error; the page without offers
    with the [TypeError] of the read. *)
Lemma getDiaProduct_throws_only_witness :
  getDiaProduct_parsing sample_JSON_parse "product:price:amount" string
    text_only_parseHTML (HtmlBuffer [])
    = inl "charCodeAt is not a function"
  ∧ getDiaProduct_parsing sample_JSON_parse "product:price:amount" string
      text_only_parseHTML (HtmlString "no-offers")
    = inr (Throw (TypeError Undefined "offers"))
  ∧ ∃ ld base property,
      getProductJsonLd sample_JSON_parse (sample_parseHTML (HtmlString "no-offers"))
        = Return ld
      ∧ ¬ first_offer_present ld
      ∧ TypeError Undefined "offers" = TypeError base property.
Proof.
  split_and!; [reflexivity..|].
  destruct (getDiaProduct_throws_only sample_JSON_parse "product:price:amount"
              string text_only_parseHTML (HtmlString "no-offers"))
    as (dom & [= <-] & Hthrown).
  destruct (Hthrown _ eq_refl) as [Hean | [Hprice | [Hld | Hread]]];
    [done..|exact Hread].
Defined.

(** A page whose first offer is out of stock and whose second is in stock
    is out of stock. *)
Lemma getDiaProduct_first_offer_only_witness :
  offers_of two_offers_ld
    = Some (JArray [ JObject [ ("availability", JString "http://schema.org/OutOfStock") ];
                     JObject [ ("availability", JString "http://schema.org/InStock") ] ])
  ∧ more_getDiaProduct (HtmlString "two-offers")
    = Return {| ean := "7790001"; precioCentavos := Some 19990;
                inStock := Some false |}.
Proof.
  split; [reflexivity|].
  destruct (getDiaProduct_first_offer_only more_JSON_parse "product:price:amount"
              more_parseHTML (HtmlString "two-offers") "7790001" (Some 19990)
              two_offers_ld
              [ ("availability", JString "http://schema.org/OutOfStock") ]
              [ JObject [ ("availability", JString "http://schema.org/InStock") ] ]
              eq_refl ltac:(done) eq_refl eq_refl eq_refl)
    as (stock & Hreturn & Hstock).
  destruct stock; [|exact Hreturn].
  destruct Hstock as [Hstock _]. specialize (Hstock eq_refl). done.
Defined.
